(** * pymonad: the Maybe and Writer monads

    A shallow embedding of [pymonad/maybe.py] and [pymonad/writer.py].

    The two modules are dynamically typed: a monad instance is an object
    with two attributes, [value] and [monoid], that may hold any Python
    value, and the methods take arbitrary callables.  The embedding
    therefore works over one universe of Python values, gives every
    instance an identity (so that [is] and "returns [self]" can be
    stated), and runs the methods in a state-and-exception monad whose
    state is the allocator together with the list of calls made to
    user-supplied callables.

    [Option] and [Some] (the end of maybe.py) rest on
    [pymonad.monad.MonadAlias], which is not among the source files;
    they are not embedded and no property below concerns them. *)

From Stdlib Require Import ZArith String List Bool Arith Lia DecimalString.
Import ListNotations.
Local Open Scope string_scope.

Set Implicit Arguments.

(** ** Python values *)

(** Identity of an object ([id(obj)]). *)
Definition oid := nat.

(** Identity of a user-written function object. *)
Definition fid := nat.

(** The two monad classes of the source files. *)
Inductive mclass : Type := CMaybe | CWriter.

(** The bound class methods that the source passes around as callables. *)
Inductive builtin : Type := Maybe_insert_method | Writer_insert_method.

(** The values the methods can meet.  Floats are left out (their [==]
    is not reflexive); lists are treated as immutable values, which is
    how a Writer log uses them ([+] builds a new list). *)
#[warnings="-register-all"]
Inductive val : Type :=
| VNone
| VBool (b : bool)
| VInt (z : Z)
| VStr (s : string)
| VList (l : list val)
| VFun (f : fid)
| VBuiltin (m : builtin)
| VMonad (c : mclass) (o : oid) (value monoid : val)
| VObject (o : oid) (attrs : list (string * val)).

Inductive exn : Type :=
| AttributeError (name : string)
| TypeError
| RecursionError
| Exception (name : string).

(** Result of a computation that has no effect on the store. *)
Inductive res (A : Type) : Type :=
| Ok (a : A)
| Err (e : exn).
Arguments Err {A} e.

Definition res_bind {A B} (r : res A) (k : A -> res B) : res B :=
  match r with
  | Ok a => k a
  | Err e => Err e
  end.

Declare Scope res_scope.
Delimit Scope res_scope with res.
Notation "'let?' x ':=' r 'in' k" := (res_bind r (fun x => k))
  (at level 10, x name, r at level 100, k at level 200) : res_scope.
Local Open Scope res_scope.

(** *** Sizes, for the recursion of [==] *)

Fixpoint val_size (v : val) : nat :=
  match v with
  | VList l => S (list_sum (map val_size l))
  | VMonad _ _ a b => S (val_size a + val_size b)
  | VObject _ attrs => S (list_sum (map (fun p => val_size (snd p)) attrs))
  | _ => 1
  end.

(** *** Attribute access: [obj.name] for a data attribute *)

Fixpoint lookup_attr (name : string) (attrs : list (string * val)) : option val :=
  match attrs with
  | [] => None
  | (k, v) :: rest => if String.eqb k name then Some v else lookup_attr name rest
  end.

(** A monad instance has exactly the attributes [value] and [monoid].
    Modelled from the spec: [pymonad.monad.Monad.__init__] is not among
    the source files; the spec's data model says every monad value
    carries exactly the two fields [value] and [monoid]. *)
Definition getattr (v : val) (name : string) : res val :=
  match v with
  | VMonad _ _ value monoid =>
      if String.eqb name "value" then Ok value
      else if String.eqb name "monoid" then Ok monoid
      else Err (AttributeError name)
  | VObject _ attrs =>
      match lookup_attr name attrs with
      | Some x => Ok x
      | None => Err (AttributeError name)
      end
  | _ => Err (AttributeError name)
  end.

(** *** Truthiness, identity with [False], and [+] *)

(** [bool(v)]; instances define neither [__bool__] nor [__len__]. *)
Definition py_truthy (v : val) : bool :=
  match v with
  | VNone => false
  | VBool b => b
  | VInt z => negb (Z.eqb z 0)
  | VStr s => negb (String.eqb s "")
  | VList l => match l with [] => false | _ => true end
  | _ => true
  end.

(** [v is False] *)
Definition py_is_False (v : val) : bool :=
  match v with
  | VBool false => true
  | _ => false
  end.

(** [a + b]: numbers (bool is a subclass of int), strings and lists. *)
Definition py_add (a b : val) : res val :=
  match a, b with
  | VInt x, VInt y => Ok (VInt (x + y))
  | VInt x, VBool y => Ok (VInt (x + Z.b2z y))
  | VBool x, VInt y => Ok (VInt (Z.b2z x + y))
  | VBool x, VBool y => Ok (VInt (Z.b2z x + Z.b2z y))
  | VStr x, VStr y => Ok (VStr (x ++ y))
  | VList x, VList y => Ok (VList (x ++ y))
  | _, _ => Err TypeError
  end.

(** *** Equality: [a == b] *)

(** Equality of two values neither of which is a monad instance or a
    pair of lists: [None], numbers (with [True == 1]), strings,
    functions and plain objects (both by identity). *)
Definition prim_eq (a b : val) : bool :=
  match a, b with
  | VNone, VNone => true
  | VBool x, VBool y => Bool.eqb x y
  | VBool x, VInt y => Z.eqb (Z.b2z x) y
  | VInt x, VBool y => Z.eqb x (Z.b2z y)
  | VInt x, VInt y => Z.eqb x y
  | VStr x, VStr y => String.eqb x y
  | VFun f, VFun g => Nat.eqb f g
  | VBuiltin Maybe_insert_method, VBuiltin Maybe_insert_method => true
  | VBuiltin Writer_insert_method, VBuiltin Writer_insert_method => true
  | VObject o1 _, VObject o2 _ => Nat.eqb o1 o2
  | _, _ => false
  end.

(** [list.__eq__] on lists of equal length: stops at the first pair
    that differs, and an exception of an element comparison escapes. *)
Fixpoint list_eq (eq : val -> val -> res bool) (l1 l2 : list val) : res bool :=
  match l1, l2 with
  | [], [] => Ok true
  | x :: r1, y :: r2 =>
      let? b := eq x y in
      if b then list_eq eq r1 r2 else Ok false
  | _, _ => Ok false
  end.

Section EqMethods.
(** The [==] used on the attributes. *)
Variable eq : val -> val -> res bool.

(** maybe.py, [Maybe.__eq__]:
    [return self.value == other.value and self.monoid == other.monoid] *)
Definition Maybe_eq_with (self other : val) : res bool :=
  let? sv := getattr self "value" in
  let? ov := getattr other "value" in
  let? same_value := eq sv ov in
  if same_value then
    let? sm := getattr self "monoid" in
    let? om := getattr other "monoid" in
    eq sm om
  else Ok false.

(** writer.py, [Writer.__eq__]: the same expression. *)
Definition Writer_eq_with (self other : val) : res bool :=
  let? sv := getattr self "value" in
  let? ov := getattr other "value" in
  let? same_value := eq sv ov in
  if same_value then
    let? sm := getattr self "monoid" in
    let? om := getattr other "monoid" in
    eq sm om
  else Ok false.

(** One step of [a == b]: the left operand's [__eq__] when it is a
    monad instance; otherwise the built-in comparison answers
    [NotImplemented] for a monad instance on the right and Python
    calls the right operand's [__eq__] with the operands swapped. *)
Definition py_eq_body (a b : val) : res bool :=
  match a, b with
  | VMonad CMaybe _ _ _, _ => Maybe_eq_with a b
  | VMonad CWriter _ _ _, _ => Writer_eq_with a b
  | _, VMonad CMaybe _ _ _ => Maybe_eq_with b a
  | _, VMonad CWriter _ _ _ => Writer_eq_with b a
  | VList l1, VList l2 =>
      if Nat.eqb (length l1) (length l2) then list_eq eq l1 l2 else Ok false
  | _, _ => Ok (prim_eq a b)
  end.
End EqMethods.

Fixpoint py_eq_fuel (n : nat) : val -> val -> res bool :=
  match n with
  | O => fun _ _ => Err RecursionError
  | S k => py_eq_body (py_eq_fuel k)
  end.

(** [a == b].  The fuel is the size of the operands, which is always
    enough ([py_eq_unfold] below). *)
Definition py_eq (a b : val) : res bool :=
  py_eq_fuel (val_size a + val_size b) a b.

(** [a != b]: the default [__ne__] negates [__eq__]. *)
Definition py_ne (a b : val) : res bool :=
  let? r := py_eq a b in Ok (negb r).

(** [Maybe.__eq__] and [Writer.__eq__] as the methods of the source. *)
Definition Maybe_eq : val -> val -> res bool := Maybe_eq_with py_eq.
Definition Writer_eq : val -> val -> res bool := Writer_eq_with py_eq.

(** ** Effects: allocation, calls to user code, exceptions *)

(** The store as far as the methods can observe it: the identity the
    next new object gets, and the calls made so far to callables
    (callee and argument), oldest first. *)
Record state : Type := mkState {
  next_id : oid;
  calls : list (val * val)
}.

Definition M (A : Type) : Type := state -> res A * state.

Definition ret {A} (a : A) : M A := fun s => (Ok a, s).

Definition raise {A} (e : exn) : M A := fun s => (Err e, s).

Definition bind {A B} (m : M A) (k : A -> M B) : M B :=
  fun s =>
    match m s with
    | (Ok a, s') => k a s'
    | (Err e, s') => (Err e, s')
    end.

(** A computation without effects, as a step of a method. *)
Definition lift {A} (r : res A) : M A := fun s => (r, s).

(** [try: body  except: handler] with a bare [except]: every exception
    is caught; what the body did to the store stays done. *)
Definition try_except {A} (body : M A) (handler : exn -> M A) : M A :=
  fun s =>
    match body s with
    | (Ok a, s') => (Ok a, s')
    | (Err e, s') => handler e s'
    end.

Declare Scope py_scope.
Delimit Scope py_scope with py.
Notation "x <- m ;; k" := (bind m (fun x => k))
  (at level 61, m at next level, right associativity) : py_scope.
Local Open Scope py_scope.

(** The state after one allocation. *)
Definition alloc (s : state) : state :=
  mkState (S (next_id s)) (calls s).

(** The state after noting a call. *)
Definition note_call (f x : val) (s : state) : state :=
  mkState (next_id s) (calls s ++ [(f, x)]).

(** [cls(value, monoid)]: a new instance.
    Modelled from the spec: the constructor [pymonad.monad.Monad.__init__]
    is not among the source files; by the spec's data model it stores
    its two arguments in the fields [value] and [monoid]. *)
Definition new_monad (c : mclass) (value monoid : val) : M val :=
  fun s => (Ok (VMonad c (next_id s) value monoid), alloc s).

(** maybe.py: [def Just(value): return Maybe(value, True)] *)
Definition Just (value : val) : M val :=
  new_monad CMaybe value (VBool true).

(** maybe.py: [Nothing = Maybe(None, False)], created once when the
    module is loaded; it is the object with identity [Nothing_id]. *)
Definition Nothing_id : oid := 0.
Definition Nothing : val := VMonad CMaybe Nothing_id VNone (VBool false).

(** The store once the module is loaded. *)
Definition initial_state : state := mkState 1 [].

(** maybe.py, [Maybe.insert]: [return Just(value)] *)
Definition Maybe_insert (value : val) : M val := Just value.

(** writer.py, [Writer.insert]: [return Writer(value, '')] *)
Definition Writer_insert (value : val) : M val :=
  new_monad CWriter value (VStr "").

Section Methods.
(** The bodies of the user's function objects: given the argument
    and the allocator, a body returns or raises and may have
    allocated. *)
Variable fn_body : fid -> val -> oid -> res val * oid.

(** [f(x)] *)
Definition py_call (f x : val) : M val :=
  match f with
  | VFun i =>
      fun s =>
        let s1 := note_call f x s in
        let (r, n) := fn_body i x (next_id s1) in
        (r, mkState n (calls s1))
  | VBuiltin Maybe_insert_method =>
      fun s => Maybe_insert x (note_call f x s)
  | VBuiltin Writer_insert_method =>
      fun s => Writer_insert x (note_call f x s)
  | _ => raise TypeError
  end.

(** *** writer.py *)

(** [Writer.bind]:
    [result = kleisli_function(self.value)]
    [return Writer(result.value, self.monoid + result.monoid)] *)
Definition Writer_bind (self kleisli_function : val) : M val :=
  v <- lift (getattr self "value") ;;
  result <- py_call kleisli_function v ;;
  rv <- lift (getattr result "value") ;;
  sm <- lift (getattr self "monoid") ;;
  rm <- lift (getattr result "monoid") ;;
  log <- lift (py_add sm rm) ;;
  new_monad CWriter rv log.

(** [Writer.map]: [return Writer(function(self.value), self.monoid)] *)
Definition Writer_map (self function : val) : M val :=
  v <- lift (getattr self "value") ;;
  r <- py_call function v ;;
  sm <- lift (getattr self "monoid") ;;
  new_monad CWriter r sm.

(** *** maybe.py *)

(** [Maybe.is_just]: [return self.monoid] *)
Definition Maybe_is_just (self : val) : M val :=
  lift (getattr self "monoid").

(** [Maybe.is_nothing]: [return not self.monoid] *)
Definition Maybe_is_nothing (self : val) : M val :=
  t <- lift (getattr self "monoid") ;;
  ret (VBool (negb (py_truthy t))).

(** [Maybe.map]:
    [if self.is_nothing(): return self]
    [else: try: return Just(function(self.value))]
    [      except: return Nothing] *)
Definition Maybe_map (self function : val) : M val :=
  absent <- Maybe_is_nothing self ;;
  if py_truthy absent then ret self
  else
    try_except
      (v <- lift (getattr self "value") ;;
       r <- py_call function v ;;
       Just r)
      (fun _ => ret Nothing).

(** [Maybe.bind]:
    [if self.monoid is False: return self]
    [else: try: return kleisli_function(self.value)]
    [      except: return Nothing] *)
Definition Maybe_bind (self kleisli_function : val) : M val :=
  t <- lift (getattr self "monoid") ;;
  if py_is_False t then ret self
  else
    try_except
      (v <- lift (getattr self "value") ;;
       py_call kleisli_function v)
      (fun _ => ret Nothing).

(** [obj.is_nothing()]: only [Maybe] defines the method. *)
Definition call_is_nothing (obj : val) : M val :=
  match obj with
  | VMonad CMaybe _ _ _ => Maybe_is_nothing obj
  | _ => raise (AttributeError "is_nothing")
  end.

(** [obj.map(function)]: the method of the instance's class. *)
Definition call_map (obj function : val) : M val :=
  match obj with
  | VMonad CMaybe _ _ _ => Maybe_map obj function
  | VMonad CWriter _ _ _ => Writer_map obj function
  | _ => raise (AttributeError "map")
  end.

(** [Maybe.amap]:
    [if self.is_nothing() or monad_value.is_nothing(): return Nothing]
    [else: return monad_value.map(self.value)] *)
Definition Maybe_amap (self monad_value : val) : M val :=
  a <- Maybe_is_nothing self ;;
  c <- (if py_truthy a then ret a else call_is_nothing monad_value) ;;
  if py_truthy c then ret Nothing
  else
    f <- lift (getattr self "value") ;;
    call_map monad_value f.
End Methods.

(** ** Example callables *)

(** Function objects used in the concrete scenarios:
    - 0: [lambda x: Writer(x + 1, "a")]
    - 1: [lambda x: Writer(x + 1, "b")]
    - 2: [lambda x: x + 1]
    - 3: [lambda x: x.missing]  (raises [AttributeError] on a number)
    - 4: [lambda x: Writer(x, ["a"])] *)
Definition example_body (f : fid) (x : val) (n : oid) : res val * oid :=
  match f with
  | 0 =>
      match py_add x (VInt 1) with
      | Ok y => (Ok (VMonad CWriter n y (VStr "a")), S n)
      | Err e => (Err e, n)
      end
  | 1 =>
      match py_add x (VInt 1) with
      | Ok y => (Ok (VMonad CWriter n y (VStr "b")), S n)
      | Err e => (Err e, n)
      end
  | 2 => (py_add x (VInt 1), n)
  | 3 => (getattr x "missing", n)
  | 4 => (Ok (VMonad CWriter n x (VList [VStr "a"])), S n)
  | _ => (Err TypeError, n)
  end.

(** ** Rendering, callers and composed functions *)

Section Rendering.
(** The text that an f-string puts for [{v}], that is [format(v, '')].
    It is fixed by the classes of the values, most of which are not
    among the source files, so the renderings take it as given. *)
Variable text : val -> string.

(** maybe.py, [Maybe.__repr__]:
    [return f'Just {self.value}' if self.monoid else 'Nothing'] *)
Definition Maybe_repr (self : val) : res string :=
  let? t := getattr self "monoid" in
  if py_truthy t then
    let? v := getattr self "value" in
    Ok ("Just " ++ text v)
  else Ok "Nothing".

(** writer.py, [Writer.__repr__]:
    [return f'({self.value}, {self.monoid})'] *)
Definition Writer_repr (self : val) : res string :=
  let? v := getattr self "value" in
  let? m := getattr self "monoid" in
  Ok ("(" ++ text v ++ ", " ++ text m ++ ")").
End Rendering.

(** The text of the values whose rendering the language fixes; the
    empty text stands in for the others in the examples. *)
Definition example_text (v : val) : string :=
  match v with
  | VNone => "None"
  | VBool true => "True"
  | VBool false => "False"
  | VInt z => NilZero.string_of_int (Z.to_int z)
  | VStr s => s
  | _ => ""
  end.

(** A [lambda] whose body is the computation [body]: it runs on the
    allocator it is given and keeps its own note of calls. *)
Definition lambda_body (body : val -> M val) (x : val) (n : oid) : res val * oid :=
  let (r, s') := body x (mkState n []) in (r, next_id s').

Section Callers.
Variable fn_body : fid -> val -> oid -> res val * oid.

(** [obj.bind(f)]: the method of the instance's class. *)
Definition call_bind (obj f : val) : M val :=
  match obj with
  | VMonad CMaybe _ _ _ => Maybe_bind fn_body obj f
  | VMonad CWriter _ _ _ => Writer_bind fn_body obj f
  | _ => raise (AttributeError "bind")
  end.

(** The chain [m.bind(f1).bind(f2)...] over the functions [fs]. *)
Fixpoint bind_chain (m : val) (fs : list val) : M val :=
  match fs with
  | [] => ret m
  | f :: rest => r <- call_bind m f ;; bind_chain r rest
  end.

(** [lambda x: g(f(x))] *)
Definition compose_body (f g : val) : val -> oid -> res val * oid :=
  lambda_body (fun x => y <- py_call fn_body f x ;; py_call fn_body g y).

(** [lambda x: f(x).bind(g)] *)
Definition kleisli_body (f g : val) : val -> oid -> res val * oid :=
  lambda_body (fun x => y <- py_call fn_body f x ;; call_bind y g).

(** [lambda x: Just(f(x))] *)
Definition just_after_body (f : val) : val -> oid -> res val * oid :=
  lambda_body (fun x => y <- py_call fn_body f x ;; Just y).

(** [lambda x: Writer.insert(f(x))] *)
Definition insert_after_body (f : val) : val -> oid -> res val * oid :=
  lambda_body (fun x => y <- py_call fn_body f x ;; Writer_insert y).
End Callers.

(** Function objects for the scenarios of composition:
    - 0: [lambda x: x + 1]
    - 1: [lambda x: x + x]
    - 3: [lambda x: Writer(x + 1, "a")]
    - 4: [lambda x: Writer(x + x, "b")]
    - 6: [lambda x: x]
    - 7: [lambda x: Just(x + 1)]
    - 10: [lambda x: Writer(x, "a")]
    - 11: [lambda x: Writer(x, "b")] *)
Definition base_body (f : fid) (x : val) (n : oid) : res val * oid :=
  match f with
  | 0 => (py_add x (VInt 1), n)
  | 1 => (py_add x x, n)
  | 3 =>
      match py_add x (VInt 1) with
      | Ok y => (Ok (VMonad CWriter n y (VStr "a")), S n)
      | Err e => (Err e, n)
      end
  | 4 =>
      match py_add x x with
      | Ok y => (Ok (VMonad CWriter n y (VStr "b")), S n)
      | Err e => (Err e, n)
      end
  | 6 => (Ok x, n)
  | 7 =>
      match py_add x (VInt 1) with
      | Ok y => (Ok (VMonad CMaybe n y (VBool true)), S n)
      | Err e => (Err e, n)
      end
  | 10 => (Ok (VMonad CWriter n x (VStr "a")), S n)
  | 11 => (Ok (VMonad CWriter n x (VStr "b")), S n)
  | _ => (Err TypeError, n)
  end.

(** The functions of [base_body] together with functions built from
    them:
    - 2: [lambda x: f1(f0(x))]
    - 5: [lambda x: f3(x).bind(f4)]
    - 8: [lambda x: Just(f0(x))]
    - 9: [lambda x: f7(x).bind(f7)]
    - 12: [lambda x: Writer.insert(f0(x))] *)
Definition composed_body (f : fid) : val -> oid -> res val * oid :=
  match f with
  | 2 => compose_body base_body (VFun 0) (VFun 1)
  | 5 => kleisli_body base_body (VFun 3) (VFun 4)
  | 8 => just_after_body base_body (VFun 0)
  | 9 => kleisli_body base_body (VFun 7) (VFun 7)
  | 12 => insert_after_body base_body (VFun 0)
  | _ => base_body f
  end.

(** ** Properties of [==] *)

Lemma val_size_pos (v : val) : 0 < val_size v.
Proof. destruct v; simpl; lia. Qed.

Lemma lookup_attr_size name attrs x :
  lookup_attr name attrs = Some x ->
  val_size x <= list_sum (map (fun p => val_size (snd p)) attrs).
Proof.
  induction attrs as [|[k v] rest IH]; simpl; [discriminate|].
  destruct (String.eqb k name).
  - intros [= ->]. lia.
  - intros H. specialize (IH H). lia.
Qed.

Lemma getattr_size v name x :
  getattr v name = Ok x -> val_size x < val_size v.
Proof.
  destruct v; simpl; try discriminate.
  - destruct (String.eqb name "value"); [intros [= ->]; lia|].
    destruct (String.eqb name "monoid"); [intros [= ->]; lia|discriminate].
  - destruct (lookup_attr name attrs) eqn:E; [|discriminate].
    intros [= ->]. apply lookup_attr_size in E. lia.
Qed.

Lemma list_eq_ext (f g : val -> val -> res bool) l1 :
  forall l2,
    (forall x y, In x l1 -> In y l2 -> f x y = g x y) ->
    list_eq f l1 l2 = list_eq g l1 l2.
Proof.
  induction l1 as [|x r1 IH]; intros [|y r2] H; simpl; try reflexivity.
  rewrite (H x y) by (simpl; auto).
  destruct (g x y) as [[|]|e]; simpl; try reflexivity.
  apply IH. intros; apply H; simpl; auto.
Qed.

Lemma In_val_size x l : In x l -> val_size x <= list_sum (map val_size l).
Proof.
  induction l as [|y r IH]; simpl; [tauto|].
  intros [->|H]; [lia|]. specialize (IH H). lia.
Qed.

Section EqExt.
Variables f g : val -> val -> res bool.

Lemma Maybe_eq_with_ext self other :
  (forall x y, val_size x + val_size y < val_size self + val_size other ->
               f x y = g x y) ->
  Maybe_eq_with f self other = Maybe_eq_with g self other.
Proof.
  intros H. unfold Maybe_eq_with.
  destruct (getattr self "value") as [sv|] eqn:Esv; simpl; [|reflexivity].
  destruct (getattr other "value") as [ov|] eqn:Eov; simpl; [|reflexivity].
  apply getattr_size in Esv, Eov.
  rewrite (H sv ov) by lia.
  destruct (g sv ov) as [[|]|]; simpl; try reflexivity.
  destruct (getattr self "monoid") as [sm|] eqn:Esm; simpl; [|reflexivity].
  destruct (getattr other "monoid") as [om|] eqn:Eom; simpl; [|reflexivity].
  apply getattr_size in Esm, Eom.
  apply H. lia.
Qed.

Lemma Writer_eq_with_ext self other :
  (forall x y, val_size x + val_size y < val_size self + val_size other ->
               f x y = g x y) ->
  Writer_eq_with f self other = Writer_eq_with g self other.
Proof. exact (Maybe_eq_with_ext self other). Qed.

Lemma py_eq_body_ext a b :
  (forall x y, val_size x + val_size y < val_size a + val_size b ->
               f x y = g x y) ->
  py_eq_body f a b = py_eq_body g a b.
Proof.
  intros H.
  assert (Hsw : forall x y,
             val_size x + val_size y < val_size b + val_size a ->
             f x y = g x y) by (intros; apply H; lia).
  destruct a as [| | | |l1| | |[|] ? ? ?|];
    try (apply Maybe_eq_with_ext; assumption);
    try (apply Writer_eq_with_ext; assumption);
    destruct b as [| | | |l2| | |[|] ? ? ?|];
    try reflexivity;
    try (apply Maybe_eq_with_ext; assumption);
    try (apply Writer_eq_with_ext; assumption).
  simpl. destruct (Nat.eqb (length l1) (length l2)); [|reflexivity].
  apply list_eq_ext. intros x y Hx Hy.
  apply In_val_size in Hx, Hy. apply H. simpl. lia.
Qed.
End EqExt.

Lemma py_eq_fuel_enough n :
  forall m a b,
    val_size a + val_size b <= n ->
    val_size a + val_size b <= m ->
    py_eq_fuel n a b = py_eq_fuel m a b.
Proof.
  induction n as [|n IH]; intros m a b Hn Hm.
  - pose proof (val_size_pos a). lia.
  - destruct m as [|m]; [pose proof (val_size_pos a); lia|].
    simpl. apply py_eq_body_ext. intros x y Hxy. apply IH; lia.
Qed.

(** [==] unfolds to one step of itself: the fuel never runs out. *)
Lemma py_eq_unfold a b : py_eq a b = py_eq_body py_eq a b.
Proof.
  unfold py_eq at 1.
  destruct (val_size a + val_size b) as [|k] eqn:E.
  - pose proof (val_size_pos a). lia.
  - simpl. apply py_eq_body_ext. intros x y Hxy.
    unfold py_eq. apply py_eq_fuel_enough; lia.
Qed.

(** [==] with a monad instance on the left is its [__eq__]. *)
Lemma py_eq_monad c o v t other :
  py_eq (VMonad c o v t) other =
  (let? ov := getattr other "value" in
   let? same_value := py_eq v ov in
   if same_value then
     let? om := getattr other "monoid" in
     py_eq t om
   else Ok false).
Proof. rewrite py_eq_unfold. destruct c; reflexivity. Qed.

(** [==] between two monad instances, of whatever classes. *)
Lemma py_eq_monad_monad c1 o1 v1 t1 c2 o2 v2 t2 :
  py_eq (VMonad c1 o1 v1 t1) (VMonad c2 o2 v2 t2) =
  (let? same_value := py_eq v1 v2 in
   if same_value then py_eq t1 t2 else Ok false).
Proof. rewrite py_eq_monad. reflexivity. Qed.

Lemma prim_eq_refl v :
  match v with VList _ | VMonad _ _ _ _ => True | _ => prim_eq v v = true end.
Proof.
  destruct v as [|b|z|s| | |[|]| |]; simpl; trivial.
  - apply Bool.eqb_reflx.
  - apply Z.eqb_refl.
  - apply String.eqb_refl.
  - apply Nat.eqb_refl.
  - apply Nat.eqb_refl.
Qed.

Lemma list_eq_refl (eq : val -> val -> res bool) l :
  (forall x, In x l -> eq x x = Ok true) -> list_eq eq l l = Ok true.
Proof.
  induction l as [|x r IH]; intros H; simpl; [reflexivity|].
  rewrite (H x) by (simpl; auto). simpl.
  apply IH. intros; apply H; simpl; auto.
Qed.

Lemma py_eq_refl_bounded n :
  forall v, val_size v < n -> py_eq v v = Ok true.
Proof.
  induction n as [|n IH]; intros v Hv; [lia|].
  destruct v as [| | | |l| | |c o a b|] eqn:Ev;
    try (match goal with
         | |- py_eq ?x ?x = _ =>
             rewrite py_eq_unfold; exact (f_equal (@Ok bool) (prim_eq_refl x))
         end).
  - rewrite py_eq_unfold. simpl. rewrite Nat.eqb_refl.
    apply list_eq_refl. intros x Hx. apply IH.
    apply In_val_size in Hx. simpl in Hv. lia.
  - rewrite py_eq_monad_monad. simpl in Hv.
    rewrite (IH a) by lia. simpl. apply IH. lia.
Qed.

(** On this universe a value equals itself, so the identity shortcut
    that CPython takes when it compares list elements cannot be
    observed.  A float NaN, which the universe leaves out, is not
    equal to itself: the properties of results further down are
    therefore stated by what the results hold, and by how they compare
    relative to the comparison of a value with itself. *)
Lemma py_eq_refl v : py_eq v v = Ok true.
Proof. apply (py_eq_refl_bounded (n := S (val_size v))). lia. Qed.

(** ** The methods *)

Section MethodFacts.
Variable fn_body : fid -> val -> oid -> res val * oid.

Lemma Maybe_is_nothing_run o v t s :
  Maybe_is_nothing (VMonad CMaybe o v t) s =
  (Ok (VBool (negb (py_truthy t))), s).
Proof. reflexivity. Qed.

(** A present instance: [map] is the guarded call followed by [Just]. *)
Lemma Maybe_map_present o v t f s :
  py_truthy t = true ->
  Maybe_map fn_body (VMonad CMaybe o v t) f s =
  try_except (r <- py_call fn_body f v ;; Just r) (fun _ => ret Nothing) s.
Proof.
  intros Ht. unfold Maybe_map, bind at 1.
  rewrite Maybe_is_nothing_run. simpl. rewrite Ht. reflexivity.
Qed.

(** An instance that [is_nothing] reports absent: [map] returns it. *)
Lemma Maybe_map_absent o v t f s :
  py_truthy t = false ->
  Maybe_map fn_body (VMonad CMaybe o v t) f s = (Ok (VMonad CMaybe o v t), s).
Proof.
  intros Ht. unfold Maybe_map, bind at 1.
  rewrite Maybe_is_nothing_run. simpl. rewrite Ht. reflexivity.
Qed.

(** An instance whose tag is not the object [False]: [bind] is the
    guarded call. *)
Lemma Maybe_bind_not_False o v t f s :
  py_is_False t = false ->
  Maybe_bind fn_body (VMonad CMaybe o v t) f s =
  try_except (py_call fn_body f v) (fun _ => ret Nothing) s.
Proof.
  intros Ht. unfold Maybe_bind, bind at 1, lift.
  simpl. rewrite Ht. reflexivity.
Qed.

(** A call to a function object is noted and leaves the earlier
    notes alone. *)
Lemma py_call_VFun_calls i x s :
  calls (snd (py_call fn_body (VFun i) x s)) = (calls s ++ [(VFun i, x)])%list.
Proof.
  unfold py_call. simpl.
  destruct (fn_body i x (next_id s)) as [r n]. reflexivity.
Qed.

(** *** Maybe: exceptions of the user's function *)

(** C1. If [f(x)] raises, then [Just(x).map(f)] and [Just(x).bind(f)]
    both return normally, the returned object is [Nothing] (which is
    equal to [Nothing]), and no exception reaches the caller. *)
Theorem Maybe_exception_containment (x f : val) (e : exn) (s s' : state) :
  py_call fn_body f x (alloc s) = (Err e, s') ->
  (j <- Just x ;; Maybe_map fn_body j f) s = (Ok Nothing, s') /\
  (j <- Just x ;; Maybe_bind fn_body j f) s = (Ok Nothing, s') /\
  py_eq Nothing Nothing = Ok true.
Proof.
  intros Hraise. split; [|split].
  - unfold bind at 1, Just at 1, new_monad.
    rewrite Maybe_map_present by reflexivity.
    unfold try_except, bind. rewrite Hraise. reflexivity.
  - unfold bind at 1, Just at 1, new_monad.
    rewrite Maybe_bind_not_False by reflexivity.
    unfold try_except. rewrite Hraise. reflexivity.
  - apply py_eq_refl.
Qed.

(** *** Maybe: short circuit *)

(** C5. [Nothing.map(f)] and [Nothing.bind(f)] return the object
    [Nothing] itself and leave the store as it was: no instance has
    been created ([next_id] is unchanged) and [f] has not been
    called ([calls] is unchanged). *)
Theorem Nothing_short_circuit (f : val) (s : state) :
  Maybe_map fn_body Nothing f s = (Ok Nothing, s) /\
  Maybe_bind fn_body Nothing f s = (Ok Nothing, s).
Proof. split; reflexivity. Qed.
End MethodFacts.

(** [f = lambda x: x.missing] raises on [5]; both chains give [Nothing]. *)
Lemma Maybe_exception_containment_witness :
  py_call example_body (VFun 3) (VInt 5) (alloc initial_state) =
    (Err (AttributeError "missing"), mkState 2 [(VFun 3, VInt 5)]) /\
  (j <- Just (VInt 5) ;; Maybe_map example_body j (VFun 3)) initial_state =
    (Ok Nothing, mkState 2 [(VFun 3, VInt 5)]) /\
  (j <- Just (VInt 5) ;; Maybe_bind example_body j (VFun 3)) initial_state =
    (Ok Nothing, mkState 2 [(VFun 3, VInt 5)]) /\
  py_eq Nothing Nothing = Ok true.
Proof.
  split; [reflexivity|].
  apply (@Maybe_exception_containment example_body (VInt 5) (VFun 3)
           (AttributeError "missing") initial_state).
  reflexivity.
Defined.

Section MaybeAbsence.
Variable fn_body : fid -> val -> oid -> res val * oid.

(** The handler of [map] and [bind] returns a constant, so the calls
    noted by the guarded body are the calls noted by the whole. *)
Lemma try_except_Nothing_calls (body : M val) s :
  calls (snd (try_except body (fun _ => ret Nothing) s)) = calls (snd (body s)).
Proof. unfold try_except. destruct (body s) as [[r|e] s']; reflexivity. Qed.

(** *** Maybe: applying a wrapped function *)

(** C7. For Maybe instances [m] (holding [g]) and [n]: if
    [m.is_nothing()] or [n.is_nothing()] answers [True], [m.amap(n)]
    returns [Nothing]; if both answer [False], [m.amap(n)] is
    [n.map(m.value)]. *)
Theorem Maybe_amap_spec (o1 o2 : oid) (g t1 v2 t2 : val) (s : state) :
  let m := VMonad CMaybe o1 g t1 in
  let n := VMonad CMaybe o2 v2 t2 in
  (Maybe_is_nothing m s = (Ok (VBool true), s) \/
   Maybe_is_nothing n s = (Ok (VBool true), s) ->
   Maybe_amap fn_body m n s = (Ok Nothing, s)) /\
  (Maybe_is_nothing m s = (Ok (VBool false), s) ->
   Maybe_is_nothing n s = (Ok (VBool false), s) ->
   Maybe_amap fn_body m n s = Maybe_map fn_body n g s).
Proof.
  intros m n. subst m n. rewrite !Maybe_is_nothing_run.
  assert (Hamap :
            Maybe_amap fn_body (VMonad CMaybe o1 g t1) (VMonad CMaybe o2 v2 t2) s =
            if negb (py_truthy t1) || negb (py_truthy t2)
            then (Ok Nothing, s)
            else Maybe_map fn_body (VMonad CMaybe o2 v2 t2) g s).
  { unfold Maybe_amap. unfold bind at 1. rewrite Maybe_is_nothing_run.
    destruct (py_truthy t1); cbn [negb py_truthy orb]; [|reflexivity].
    unfold bind at 1, call_is_nothing. rewrite Maybe_is_nothing_run.
    destruct (py_truthy t2); reflexivity. }
  rewrite Hamap. split.
  - intros [H|H]; injection H as ->; [|rewrite orb_true_r]; reflexivity.
  - intros H1 H2. injection H1 as ->. injection H2 as ->. reflexivity.
Qed.

(** *** Maybe: two tests of absence *)

(** C10. For an instance whose tag is falsy without being the object
    [False] (such as [Maybe(v, 0)]): [is_nothing()] answers [True] and
    [map(f)] returns the instance without calling [f], whereas
    [bind(f)] runs the guarded call [f(v)]; for a function object the
    call is noted in the store. *)
Theorem Maybe_map_bind_disagree_on_absence (o : oid) (v t f : val) (s : state) :
  py_truthy t = false ->
  py_is_False t = false ->
  let m := VMonad CMaybe o v t in
  Maybe_is_nothing m s = (Ok (VBool true), s) /\
  Maybe_map fn_body m f s = (Ok m, s) /\
  Maybe_bind fn_body m f s =
    try_except (py_call fn_body f v) (fun _ => ret Nothing) s /\
  (forall i, f = VFun i ->
     calls (snd (Maybe_bind fn_body m f s)) = (calls s ++ [(f, v)])%list).
Proof.
  intros Hfalsy Hnot m. subst m. repeat split.
  - rewrite Maybe_is_nothing_run, Hfalsy. reflexivity.
  - now apply Maybe_map_absent.
  - now apply Maybe_bind_not_False.
  - intros i ->. rewrite Maybe_bind_not_False by assumption.
    rewrite try_except_Nothing_calls. apply py_call_VFun_calls.
Qed.
End MaybeAbsence.

(** [Just(add1).amap(Nothing)] and [Just(add1).amap(Just(5))]. *)
Lemma Maybe_amap_spec_witness :
  Maybe_amap example_body (VMonad CMaybe 1 (VFun 2) (VBool true)) Nothing
    (mkState 3 []) = (Ok Nothing, mkState 3 []) /\
  Maybe_amap example_body (VMonad CMaybe 1 (VFun 2) (VBool true))
    (VMonad CMaybe 2 (VInt 5) (VBool true)) (mkState 3 []) =
  (Ok (VMonad CMaybe 3 (VInt 6) (VBool true)),
   mkState 4 [(VFun 2, VInt 5)]).
Proof.
  split.
  - apply (proj1 (@Maybe_amap_spec example_body 1 Nothing_id (VFun 2)
                    (VBool true) VNone (VBool false) (mkState 3 []))).
    right. reflexivity.
  - rewrite (proj2 (@Maybe_amap_spec example_body 1 2 (VFun 2)
                      (VBool true) (VInt 5) (VBool true) (mkState 3 [])));
      reflexivity.
Defined.

(** [Maybe(5, 0)] with [f = lambda x: x + 1]. *)
Lemma Maybe_map_bind_disagree_on_absence_witness :
  let m := VMonad CMaybe 1 (VInt 5) (VInt 0) in
  Maybe_is_nothing m (mkState 2 []) = (Ok (VBool true), mkState 2 []) /\
  Maybe_map example_body m (VFun 2) (mkState 2 []) = (Ok m, mkState 2 []) /\
  Maybe_bind example_body m (VFun 2) (mkState 2 []) =
    try_except (py_call example_body (VFun 2) (VInt 5))
      (fun _ => ret Nothing) (mkState 2 []) /\
  (forall i, VFun 2 = VFun i ->
     calls (snd (Maybe_bind example_body m (VFun 2) (mkState 2 []))) =
     ([] ++ [(VFun 2, VInt 5)])%list).
Proof.
  apply (@Maybe_map_bind_disagree_on_absence example_body 1 (VInt 5) (VInt 0)
           (VFun 2) (mkState 2 [])); reflexivity.
Defined.

(** ** Writer *)

Lemma append_empty_right (a : string) : (a ++ "")%string = a.
Proof. induction a as [|c a IH]; simpl; [reflexivity|now rewrite IH]. Qed.

Section WriterFacts.
Variable fn_body : fid -> val -> oid -> res val * oid.

(** [Writer.map] and [Writer.bind] begin with the call [f(self.value)]. *)
Lemma Writer_map_run o v log f s :
  Writer_map fn_body (VMonad CWriter o v log) f s =
  match py_call fn_body f v s with
  | (Ok r, s') => (Ok (VMonad CWriter (next_id s') r log), alloc s')
  | (Err e, s') => (Err e, s')
  end.
Proof.
  unfold Writer_map, bind, lift. simpl.
  destruct (py_call fn_body f v s) as [[r|e] s']; reflexivity.
Qed.

Lemma Writer_bind_run o v log f s :
  Writer_bind fn_body (VMonad CWriter o v log) f s =
  match py_call fn_body f v s with
  | (Ok result, s') =>
      match (let? rv := getattr result "value" in
             let? rm := getattr result "monoid" in
             let? l := py_add log rm in Ok (rv, l)) with
      | Ok (rv, l) => (Ok (VMonad CWriter (next_id s') rv l), alloc s')
      | Err e => (Err e, s')
      end
  | (Err e, s') => (Err e, s')
  end.
Proof.
  unfold Writer_bind, bind, lift. simpl.
  destruct (py_call fn_body f v s) as [[result|e] s']; [|reflexivity].
  destruct (getattr result "value") as [rv|]; simpl; [|reflexivity].
  destruct (getattr result "monoid") as [rm|]; simpl; [|reflexivity].
  destruct (py_add log rm); reflexivity.
Qed.

(** *** Writer: no exception handling *)

(** C8. If [f(w.value)] raises [e], then [w.map(f)] and [w.bind(f)]
    raise the same [e] from the same store; if [f(w.value)] returns
    [r], then [w.map(f)] returns a new Writer holding [r] and the log
    of [w]. *)
Theorem Writer_propagates_exceptions (o : oid) (v log f : val) (s s' : state) :
  let w := VMonad CWriter o v log in
  (forall e, py_call fn_body f v s = (Err e, s') ->
     Writer_map fn_body w f s = (Err e, s') /\
     Writer_bind fn_body w f s = (Err e, s')) /\
  (forall r, py_call fn_body f v s = (Ok r, s') ->
     Writer_map fn_body w f s =
     (Ok (VMonad CWriter (next_id s') r log), alloc s')).
Proof.
  intros w; subst w. split.
  - intros e He. rewrite Writer_map_run, Writer_bind_run, He. auto.
  - intros r Hr. rewrite Writer_map_run, Hr. reflexivity.
Qed.

(** *** Writer: order of the logs *)

(** C6. If [f(w.value)] returns a Writer and the two logs can be
    added, [w.bind(f)] returns a new Writer with the value of that
    result and the log [w.monoid + result.monoid], the log of [w] on
    the left.  The chain
    [Writer.insert(0).bind(lambda x: Writer(x+1, "a")).bind(lambda x: Writer(x+1, "b"))]
    ends with the value 2 and the log ["ab"]. *)
Theorem Writer_bind_log_order
    (o ro : oid) (v log f rv rlog l : val) (s s' : state) :
  let w := VMonad CWriter o v log in
  (py_call fn_body f v s = (Ok (VMonad CWriter ro rv rlog), s') ->
   py_add log rlog = Ok l ->
   Writer_bind fn_body w f s =
   (Ok (VMonad CWriter (next_id s') rv l), alloc s')) /\
  (forall a b, py_add (VStr a) (VStr b) = Ok (VStr (a ++ b))) /\
  (forall a b, py_add (VList a) (VList b) = Ok (VList (a ++ b))) /\
  (w0 <- Writer_insert (VInt 0) ;;
   w1 <- Writer_bind example_body w0 (VFun 0) ;;
   Writer_bind example_body w1 (VFun 1)) initial_state =
  (Ok (VMonad CWriter 5 (VInt 2) (VStr "ab")),
   mkState 6 [(VFun 0, VInt 0); (VFun 1, VInt 1)]).
Proof.
  intros w; subst w. split; [|split; [|split]].
  - intros Hcall Hadd. rewrite Writer_bind_run, Hcall. simpl.
    rewrite Hadd. reflexivity.
  - reflexivity.
  - reflexivity.
  - vm_compute. reflexivity.
Qed.

(** *** Writer: the log that [insert] starts with *)

(** C2. [Writer.insert(x)] returns a new Writer with the value [x] and
    the log [''], whatever log type the rest of the chain uses.  The
    empty string is the identity of [+] on strings, and it cannot be
    added to a list on either side: [Writer.insert(x)] followed by a
    bind whose function logs a list raises [TypeError]. *)
Theorem Writer_insert_log_is_empty_string (x : val) (s : state) :
  Writer_insert x s = (Ok (VMonad CWriter (next_id s) x (VStr "")), alloc s) /\
  (forall a, py_add (VStr "") (VStr a) = Ok (VStr a) /\
             py_add (VStr a) (VStr "") = Ok (VStr a)) /\
  (forall l, py_add (VStr "") (VList l) = Err TypeError /\
             py_add (VList l) (VStr "") = Err TypeError) /\
  py_eq (VStr "") (VList []) = Ok false /\
  (w <- Writer_insert x ;; Writer_bind example_body w (VFun 4)) s =
  (Err TypeError, mkState (S (S (next_id s))) (calls s ++ [(VFun 4, x)])).
Proof.
  repeat split.
  simpl. now rewrite append_empty_right.
Qed.

(** *** Right identity *)

(** C3. [m.bind(insert) == m] holds for a Maybe instance with a
    boolean tag and for a Writer whose log is a string.  For a Writer
    whose log is a list, [m.bind(Writer.insert)] raises [TypeError]:
    [Writer.insert] answers with the log [''], which cannot be added
    to a list. *)
Theorem bind_insert_right_identity :
  (forall o v b s,
     let m := VMonad CMaybe o v (VBool b) in
     exists r s',
       Maybe_bind fn_body m (VBuiltin Maybe_insert_method) s = (Ok r, s') /\
       py_eq r m = Ok true) /\
  (forall o v a s,
     let m := VMonad CWriter o v (VStr a) in
     exists r s',
       Writer_bind fn_body m (VBuiltin Writer_insert_method) s = (Ok r, s') /\
       py_eq r m = Ok true) /\
  (forall o v l s,
     let m := VMonad CWriter o v (VList l) in
     Writer_bind fn_body m (VBuiltin Writer_insert_method) s =
     (Err TypeError, alloc (note_call (VBuiltin Writer_insert_method) v s))).
Proof.
  split; [|split].
  - intros o v [|] s m; subst m.
    + eexists _, _. split; [reflexivity|].
      rewrite py_eq_monad_monad, py_eq_refl. reflexivity.
    + exists (VMonad CMaybe o v (VBool false)), s. split; [reflexivity|].
      apply py_eq_refl.
  - intros o v a s m; subst m.
    eexists _, _. split.
    + rewrite Writer_bind_run. simpl. reflexivity.
    + rewrite append_empty_right, py_eq_monad_monad, py_eq_refl.
      simpl. apply py_eq_refl.
  - intros o v l s m; subst m. reflexivity.
Qed.
End WriterFacts.

(** [Writer(5, "log")] with [lambda x: x.missing] and with
    [lambda x: x + 1]. *)
Lemma Writer_propagates_exceptions_witness :
  let w := VMonad CWriter 1 (VInt 5) (VStr "log") in
  (Writer_map example_body w (VFun 3) (mkState 2 []) =
     (Err (AttributeError "missing"), mkState 2 [(VFun 3, VInt 5)]) /\
   Writer_bind example_body w (VFun 3) (mkState 2 []) =
     (Err (AttributeError "missing"), mkState 2 [(VFun 3, VInt 5)])) /\
  Writer_map example_body w (VFun 2) (mkState 2 []) =
    (Ok (VMonad CWriter 2 (VInt 6) (VStr "log")),
     mkState 3 [(VFun 2, VInt 5)]).
Proof.
  split.
  - apply (proj1 (@Writer_propagates_exceptions example_body 1 (VInt 5)
                    (VStr "log") (VFun 3) (mkState 2 [])
                    (mkState 2 [(VFun 3, VInt 5)]))).
    reflexivity.
  - apply (proj2 (@Writer_propagates_exceptions example_body 1 (VInt 5)
                    (VStr "log") (VFun 2) (mkState 2 [])
                    (mkState 2 [(VFun 2, VInt 5)]))).
    reflexivity.
Defined.

(** [Writer(0, "x").bind(lambda x: Writer(x + 1, "a"))] has the log ["xa"]. *)
Lemma Writer_bind_log_order_witness :
  Writer_bind example_body (VMonad CWriter 1 (VInt 0) (VStr "x")) (VFun 0)
    (mkState 2 []) =
  (Ok (VMonad CWriter 3 (VInt 1) (VStr "xa")), mkState 4 [(VFun 0, VInt 0)]).
Proof.
  apply (proj1 (@Writer_bind_log_order example_body 1 2 (VInt 0) (VStr "x")
                  (VFun 0) (VInt 1) (VStr "a") (VStr "xa") (mkState 2 [])
                  (mkState 3 [(VFun 0, VInt 0)])));
    reflexivity.
Defined.

(** ** Equality of instances *)

Lemma getattr_Err v name e :
  getattr v name = Err e -> e = AttributeError name.
Proof.
  destruct v; simpl; try (intros [= <-]; reflexivity).
  - destruct (String.eqb name "value"); [discriminate|].
    destruct (String.eqb name "monoid"); [discriminate|].
    intros [= <-]; reflexivity.
  - destruct (lookup_attr name attrs); [discriminate|].
    intros [= <-]; reflexivity.
Qed.

(** With a monad instance on the right and another kind of value on
    the left, [==] runs the instance's [__eq__] with the operands
    swapped. *)
Lemma py_eq_reflected other c o v t :
  match other with VMonad _ _ _ _ => False | _ => True end ->
  py_eq other (VMonad c o v t) = py_eq (VMonad c o v t) other.
Proof.
  intros H. rewrite (py_eq_unfold other), (py_eq_unfold (VMonad c o v t)).
  destruct other; try contradiction; destruct c; reflexivity.
Qed.

(** C4. [Maybe.__eq__] compares the value fields before the tags,
    for absent instances too: two instances compare as their values
    and then their tags compare, so [Just(5) == Just(5)],
    [Just(5) != Just(6)], [Just(5) != Nothing] and
    [Nothing == Nothing], and two instances made by [Just(x)] compare
    as [x] compares with itself.  Two absent instances (tag [False])
    compare as the placeholders in their value fields compare:
    [Maybe(1, False)] and [Nothing] both answer [True] to
    [is_nothing()], and [Maybe(1, False) == Nothing] is [False]. *)
Theorem Maybe_eq_compares_placeholders :
  (forall o1 v1 t1 o2 v2 t2,
     py_eq (VMonad CMaybe o1 v1 t1) (VMonad CMaybe o2 v2 t2) =
     (let? same_value := py_eq v1 v2 in
      if same_value then py_eq t1 t2 else Ok false)) /\
  (forall o1 o2 x,
     py_eq (VMonad CMaybe o1 x (VBool true)) (VMonad CMaybe o2 x (VBool true))
     = py_eq x x) /\
  (forall o1 o2,
     py_eq (VMonad CMaybe o1 (VInt 5) (VBool true))
           (VMonad CMaybe o2 (VInt 5) (VBool true)) = Ok true /\
     py_ne (VMonad CMaybe o1 (VInt 5) (VBool true))
           (VMonad CMaybe o2 (VInt 6) (VBool true)) = Ok true) /\
  (forall o, py_ne (VMonad CMaybe o (VInt 5) (VBool true)) Nothing = Ok true) /\
  py_eq Nothing Nothing = Ok true /\
  (forall o1 v1 o2 v2,
     py_eq (VMonad CMaybe o1 v1 (VBool false)) (VMonad CMaybe o2 v2 (VBool false))
     = py_eq v1 v2) /\
  (forall o s,
     Maybe_is_nothing (VMonad CMaybe o (VInt 1) (VBool false)) s =
       (Ok (VBool true), s) /\
     Maybe_is_nothing Nothing s = (Ok (VBool true), s) /\
     py_eq (VMonad CMaybe o (VInt 1) (VBool false)) Nothing = Ok false /\
     py_eq Nothing (VMonad CMaybe o (VInt 1) (VBool false)) = Ok false).
Proof.
  repeat apply conj.
  - intros. apply py_eq_monad_monad.
  - intros o1 o2 x. rewrite py_eq_monad_monad.
    destruct (py_eq x x) as [[|]|]; reflexivity.
  - intros o1 o2. unfold py_ne. rewrite !py_eq_monad_monad. split; reflexivity.
  - intros o. unfold py_ne, Nothing. rewrite py_eq_monad_monad. reflexivity.
  - unfold Nothing. rewrite py_eq_monad_monad. reflexivity.
  - intros o1 v1 o2 v2. rewrite py_eq_monad_monad.
    destruct (py_eq v1 v2) as [[|]|]; reflexivity.
  - intros o s. unfold Nothing. rewrite !py_eq_monad_monad.
    repeat split.
Qed.

(** C9. [==] on a Maybe or a Writer looks only at the attributes of
    the other operand, never at its class: it answers [True] for any
    object whose [value] and [monoid] equal its own, so
    [Nothing == Writer(None, False)]; it raises [AttributeError] when
    the other operand has no [value]; and when the other operand has a
    [value] but no [monoid], the values are compared first: an
    exception of that comparison escapes, the answer [False] is the
    answer of the whole, and only the answer [True] leads to the
    [AttributeError] for [monoid].  The same holds with the operands
    swapped when the left operand is not a monad instance. *)
Theorem monad_eq_is_structural :
  (forall c o v t other ov om,
     getattr other "value" = Ok ov ->
     getattr other "monoid" = Ok om ->
     py_eq v ov = Ok true ->
     py_eq t om = Ok true ->
     py_eq (VMonad c o v t) other = Ok true) /\
  (forall o, py_eq Nothing (VMonad CWriter o VNone (VBool false)) = Ok true) /\
  (forall c o v t other e,
     getattr other "value" = Err e ->
     e = AttributeError "value" /\
     py_eq (VMonad c o v t) other = Err (AttributeError "value")) /\
  (forall c o v t other ov e,
     getattr other "value" = Ok ov ->
     getattr other "monoid" = Err e ->
     e = AttributeError "monoid" /\
     py_eq (VMonad c o v t) other =
     (let? same_value := py_eq v ov in
      if same_value then Err (AttributeError "monoid") else Ok false)) /\
  (forall c o v t other,
     match other with VMonad _ _ _ _ => False | _ => True end ->
     py_eq other (VMonad c o v t) = py_eq (VMonad c o v t) other).
Proof.
  repeat apply conj.
  - intros c o v t other ov om Hv Hm Hev Het.
    rewrite py_eq_monad, Hv. simpl. rewrite Hev, Hm. exact Het.
  - intros o. unfold Nothing. rewrite py_eq_monad_monad. reflexivity.
  - intros c o v t other e He.
    pose proof (getattr_Err _ _ He) as ->.
    split; [reflexivity|]. rewrite py_eq_monad, He. reflexivity.
  - intros c o v t other ov e Hv Hm.
    pose proof (getattr_Err _ _ Hm) as ->.
    split; [reflexivity|]. rewrite py_eq_monad, Hv. simpl.
    destruct (py_eq v ov) as [[|]|]; simpl; [rewrite Hm| |]; reflexivity.
  - intros c o v t other. apply py_eq_reflected.
Qed.

(** A plain object with [value = 6] and no [monoid]: [Just(5) == obj]
    and [Writer(5, "") == obj] answer [False], they do not raise. *)
Lemma eq_with_object_lacking_monoid_returns_False :
  getattr (VObject 9 [("value", VInt 6)]) "monoid" =
    Err (AttributeError "monoid") /\
  py_eq (VMonad CMaybe 1 (VInt 5) (VBool true))
        (VObject 9 [("value", VInt 6)]) = Ok false /\
  py_eq (VMonad CWriter 2 (VInt 5) (VStr ""))
        (VObject 9 [("value", VInt 6)]) = Ok false.
Proof. repeat split. Qed.

(** [Just(5) == obj] for objects with both fields, without [value],
    and with [value] only (equal and different); [Just(Just(1)) == obj]
    for an object with [value = 5] only, where [Just(1) == 5] raises. *)
Lemma monad_eq_is_structural_witness :
  py_eq (VMonad CMaybe 1 (VInt 5) (VBool true))
        (VObject 9 [("value", VInt 5); ("monoid", VBool true)]) = Ok true /\
  py_eq (VMonad CMaybe 1 (VInt 5) (VBool true)) (VInt 5) =
    Err (AttributeError "value") /\
  py_eq (VMonad CMaybe 1 (VInt 5) (VBool true))
        (VObject 9 [("value", VInt 5)]) = Err (AttributeError "monoid") /\
  py_eq (VMonad CMaybe 1 (VInt 5) (VBool true))
        (VObject 9 [("value", VInt 6)]) = Ok false /\
  py_eq (VMonad CMaybe 2 (VMonad CMaybe 1 (VInt 1) (VBool true)) (VBool true))
        (VObject 9 [("value", VInt 5)]) = Err (AttributeError "value") /\
  py_eq (VInt 5) (VMonad CMaybe 1 (VInt 5) (VBool true)) =
  py_eq (VMonad CMaybe 1 (VInt 5) (VBool true)) (VInt 5).
Proof.
  destruct monad_eq_is_structural as (Hequal & _ & Hvalue & Hmonoid & Hswap).
  repeat apply conj.
  - apply (Hequal CMaybe 1 (VInt 5) (VBool true) _ (VInt 5) (VBool true));
      reflexivity.
  - apply (Hvalue CMaybe 1 (VInt 5) (VBool true) (VInt 5)
             (AttributeError "value")).
    reflexivity.
  - rewrite (proj2 (Hmonoid CMaybe 1 (VInt 5) (VBool true)
                      (VObject 9 [("value", VInt 5)]) (VInt 5)
                      (AttributeError "monoid") eq_refl eq_refl)).
    reflexivity.
  - rewrite (proj2 (Hmonoid CMaybe 1 (VInt 5) (VBool true)
                      (VObject 9 [("value", VInt 6)]) (VInt 6)
                      (AttributeError "monoid") eq_refl eq_refl)).
    reflexivity.
  - rewrite (proj2 (Hmonoid CMaybe 2 (VMonad CMaybe 1 (VInt 1) (VBool true))
                      (VBool true) (VObject 9 [("value", VInt 5)]) (VInt 5)
                      (AttributeError "monoid") eq_refl eq_refl)).
    reflexivity.
  - apply Hswap. exact I.
Defined.

(** ** Further properties of [==] and of the renderings *)





(** X2. [is_just()] returns the tag itself (not necessarily a
    boolean) and [is_nothing()] a boolean; exactly one of the two
    answers is truthy, and neither touches the store. *)
Theorem is_just_is_nothing_complementary (o : oid) (v t : val) (s : state) :
  Maybe_is_just (VMonad CMaybe o v t) s = (Ok t, s) /\
  exists n,
    Maybe_is_nothing (VMonad CMaybe o v t) s = (Ok (VBool n), s) /\
    py_truthy t = negb n /\
    py_truthy (VBool n) = negb (py_truthy t).
Proof.
  split; [reflexivity|].
  exists (negb (py_truthy t)). repeat split.
  - now rewrite negb_involutive.
Qed.

(** X3. Whatever text the values have, an instance renders as
    ["Nothing"] exactly when [is_nothing()] answers [True], and then
    its value is not rendered at all; otherwise it renders as
    ["Just "] followed by the text of its value. *)
Theorem Maybe_repr_agrees_with_is_nothing
    (text : val -> string) (o : oid) (v t : val) (s : state) :
  (Maybe_repr text (VMonad CMaybe o v t) = Ok "Nothing" <->
   Maybe_is_nothing (VMonad CMaybe o v t) s = (Ok (VBool true), s)) /\
  (Maybe_is_nothing (VMonad CMaybe o v t) s = (Ok (VBool false), s) ->
   Maybe_repr text (VMonad CMaybe o v t) = Ok ("Just " ++ text v)).
Proof.
  unfold Maybe_repr, Maybe_is_nothing, bind, lift, ret. simpl.
  destruct (py_truthy t); simpl; split.
  - split; intros H; discriminate H.
  - reflexivity.
  - split; reflexivity.
  - intros H; discriminate H.
Qed.

(** [Maybe(7, 0)] renders as ["Nothing"], [Just(7)] as ["Just 7"]. *)
Lemma Maybe_repr_agrees_with_is_nothing_witness :
  Maybe_repr example_text (VMonad CMaybe 1 (VInt 7) (VInt 0)) = Ok "Nothing" /\
  Maybe_repr example_text (VMonad CMaybe 1 (VInt 7) (VBool true)) = Ok "Just 7".
Proof.
  split.
  - apply (proj1 (@Maybe_repr_agrees_with_is_nothing example_text 1 (VInt 7)
                    (VInt 0) initial_state)).
    reflexivity.
  - apply (proj2 (@Maybe_repr_agrees_with_is_nothing example_text 1 (VInt 7)
                    (VBool true) initial_state)).
    reflexivity.
Defined.

(** ** Further properties of the Maybe methods *)

Section MaybeRuns.
Variable fn_body : fid -> val -> oid -> res val * oid.

Lemma Maybe_map_run o v t f s :
  Maybe_map fn_body (VMonad CMaybe o v t) f s =
  if py_truthy t then
    match py_call fn_body f v s with
    | (Ok y, s') => (Ok (VMonad CMaybe (next_id s') y (VBool true)), alloc s')
    | (Err _, s') => (Ok Nothing, s')
    end
  else (Ok (VMonad CMaybe o v t), s).
Proof.
  destruct (py_truthy t) eqn:Ht.
  - rewrite Maybe_map_present by assumption.
    unfold try_except, bind.
    destruct (py_call fn_body f v s) as [[y|e] s']; reflexivity.
  - now apply Maybe_map_absent.
Qed.

Lemma Maybe_bind_run o v t f s :
  Maybe_bind fn_body (VMonad CMaybe o v t) f s =
  if py_is_False t then (Ok (VMonad CMaybe o v t), s)
  else
    match py_call fn_body f v s with
    | (Ok y, s') => (Ok y, s')
    | (Err _, s') => (Ok Nothing, s')
    end.
Proof.
  destruct (py_is_False t) eqn:Ht.
  - unfold Maybe_bind, bind, lift. simpl. rewrite Ht. reflexivity.
  - rewrite Maybe_bind_not_False by assumption. reflexivity.
Qed.

Lemma Maybe_amap_run o1 g t1 o2 v2 t2 s :
  Maybe_amap fn_body (VMonad CMaybe o1 g t1) (VMonad CMaybe o2 v2 t2) s =
  if py_truthy t1 && py_truthy t2
  then Maybe_map fn_body (VMonad CMaybe o2 v2 t2) g s
  else (Ok Nothing, s).
Proof.
  unfold Maybe_amap. unfold bind at 1. rewrite Maybe_is_nothing_run.
  destruct (py_truthy t1); cbn [negb py_truthy andb]; [|reflexivity].
  unfold bind at 1, call_is_nothing. rewrite Maybe_is_nothing_run.
  destruct (py_truthy t2); reflexivity.
Qed.

(** X4. On Maybe instances [map], [bind] and [amap] never raise,
    whatever the function does; [map] and [amap] always return a Maybe
    instance: the receiver itself, [Nothing], or a new instance with
    the tag [True]. *)
Theorem Maybe_methods_never_raise
    (o o2 : oid) (v t v2 t2 f : val) (s : state) :
  (exists r s',
     Maybe_map fn_body (VMonad CMaybe o v t) f s = (Ok r, s') /\
     (r = VMonad CMaybe o v t \/ r = Nothing \/
      exists o' y, r = VMonad CMaybe o' y (VBool true))) /\
  (exists r s', Maybe_bind fn_body (VMonad CMaybe o v t) f s = (Ok r, s')) /\
  (exists r s' o' v' t',
     Maybe_amap fn_body (VMonad CMaybe o v t) (VMonad CMaybe o2 v2 t2) s =
       (Ok r, s') /\
     r = VMonad CMaybe o' v' t').
Proof.
  split; [|split].
  - rewrite Maybe_map_run. destruct (py_truthy t).
    + destruct (py_call fn_body f v s) as [[y|e] s'];
        eexists _, _; split; try reflexivity; eauto.
    + eexists _, _; split; try reflexivity; eauto.
  - rewrite Maybe_bind_run. destruct (py_is_False t).
    + eexists _, _; reflexivity.
    + destruct (py_call fn_body f v s) as [[y|e] s'];
        eexists _, _; reflexivity.
  - rewrite Maybe_amap_run. destruct (py_truthy t && py_truthy t2).
    + rewrite Maybe_map_run. destruct (py_truthy t2).
      * destruct (py_call fn_body v v2 s) as [[y|e] s'];
          eexists _, _, _, _, _; split; reflexivity.
      * eexists _, _, _, _, _; split; reflexivity.
    + eexists _, _, _, _, _; split; reflexivity.
Qed.
(** X5. [amap] looks at its argument only when the receiver is
    present: on an absent receiver it returns [Nothing] for any
    argument at all, and on a present receiver an argument that is not
    an instance (a number, a string, a list, a function, [None])
    makes it raise [AttributeError], outside any [try]. *)
Theorem Maybe_amap_checks_argument_only_when_present
    (o : oid) (g t x : val) (s : state) :
  (py_truthy t = false ->
   Maybe_amap fn_body (VMonad CMaybe o g t) x s = (Ok Nothing, s)) /\
  (py_truthy t = true ->
   match x with VMonad _ _ _ _ | VObject _ _ => False | _ => True end ->
   Maybe_amap fn_body (VMonad CMaybe o g t) x s =
   (Err (AttributeError "is_nothing"), s)).
Proof.
  split; intros Ht; unfold Maybe_amap; unfold bind at 1;
    rewrite Maybe_is_nothing_run, Ht; cbn [negb py_truthy].
  - reflexivity.
  - intros Hx. destruct x; try contradiction; reflexivity.
Qed.

(** X6. [map], [bind] and [amap] call the function at most once, and
    only on the stored value: [map] when the tag is truthy, [bind]
    when the tag is not the object [False], [amap] when both tags are
    truthy; otherwise no call is made. *)
Theorem Maybe_calls_function_at_most_once
    (o o2 : oid) (v t v2 t2 : val) (i : fid) (s : state) :
  calls (snd (Maybe_map fn_body (VMonad CMaybe o v t) (VFun i) s)) =
    (if py_truthy t then calls s ++ [(VFun i, v)] else calls s)%list /\
  calls (snd (Maybe_bind fn_body (VMonad CMaybe o v t) (VFun i) s)) =
    (if py_is_False t then calls s else calls s ++ [(VFun i, v)])%list /\
  calls (snd (Maybe_amap fn_body (VMonad CMaybe o (VFun i) t)
                (VMonad CMaybe o2 v2 t2) s)) =
    (if py_truthy t && py_truthy t2
     then calls s ++ [(VFun i, v2)] else calls s)%list.
Proof.
  assert (Hmap : forall o v t,
             calls (snd (Maybe_map fn_body (VMonad CMaybe o v t) (VFun i) s)) =
             (if py_truthy t then calls s ++ [(VFun i, v)] else calls s)%list).
  { intros o' v' t'. rewrite Maybe_map_run. destruct (py_truthy t'); [|reflexivity].
    rewrite <- (py_call_VFun_calls fn_body i v' s).
    destruct (py_call fn_body (VFun i) v' s) as [[y|e] s']; reflexivity. }
  split; [apply Hmap|split].
  - rewrite Maybe_bind_run. destruct (py_is_False t); [reflexivity|].
    rewrite <- (py_call_VFun_calls fn_body i v s).
    destruct (py_call fn_body (VFun i) v s) as [[y|e] s']; reflexivity.
  - rewrite Maybe_amap_run. destruct (py_truthy t); simpl; [|reflexivity].
    destruct (py_truthy t2) eqn:Ht2; [|reflexivity].
    rewrite Hmap, Ht2. reflexivity.
Qed.

(** X7. Left identity: when [f(x)] returns, [Maybe.insert(x).bind(f)]
    returns the very object that [f(x)] returned, not wrapped again,
    whether or not it is a Maybe. *)
Theorem Maybe_left_identity (x f y : val) (s s' : state) :
  py_call fn_body f x (alloc s) = (Ok y, s') ->
  (j <- Maybe_insert x ;; Maybe_bind fn_body j f) s = (Ok y, s').
Proof.
  intros Hcall. unfold bind at 1, Maybe_insert, Just, new_monad.
  rewrite Maybe_bind_run. simpl. rewrite Hcall. reflexivity.
Qed.



(** X10. For a Maybe with a boolean tag, [m.map(f)] gives exactly the
    result of [m.bind(lambda x: Just(f(x)))]: the same object or an
    instance with the same identity, value and tag. *)
Theorem Maybe_map_is_bind_of_Just
    (f h : fid) (o : oid) (v : val) (b : bool) (s : state) :
  (forall x n, fn_body h x n = just_after_body fn_body (VFun f) x n) ->
  fst (Maybe_map fn_body (VMonad CMaybe o v (VBool b)) (VFun f) s) =
  fst (Maybe_bind fn_body (VMonad CMaybe o v (VBool b)) (VFun h) s).
Proof.
  intros Hh. rewrite Maybe_map_run, Maybe_bind_run. destruct b; simpl.
  - rewrite Hh. unfold just_after_body, lambda_body, bind. simpl.
    destruct (fn_body f v (next_id s)) as [[y|e] n1]; reflexivity.
  - reflexivity.
Qed.
End MaybeRuns.

Section MaybeAssociativity.
Variable fn_body : fid -> val -> oid -> res val * oid.

(** What a call returns and allocates does not depend on the calls
    noted before it. *)
Lemma py_call_calls_blind f x n cs1 cs2 :
  fst (py_call fn_body f x (mkState n cs1)) =
  fst (py_call fn_body f x (mkState n cs2)) /\
  next_id (snd (py_call fn_body f x (mkState n cs1))) =
  next_id (snd (py_call fn_body f x (mkState n cs2))).
Proof.
  destruct f as [| | | | |i|[|]| |]; simpl; try (split; reflexivity).
  destruct (fn_body i x n) as [r n']. split; reflexivity.
Qed.

Lemma call_bind_calls_blind y g n cs1 cs2 :
  fst (call_bind fn_body y g (mkState n cs1)) =
  fst (call_bind fn_body y g (mkState n cs2)) /\
  next_id (snd (call_bind fn_body y g (mkState n cs1))) =
  next_id (snd (call_bind fn_body y g (mkState n cs2))).
Proof.
  destruct y as [| | | | | | |[|] o v t|]; try (split; reflexivity);
    unfold call_bind.
  - rewrite !Maybe_bind_run. destruct (py_is_False t); [split; reflexivity|].
    destruct (py_call_calls_blind g v n cs1 cs2) as [Hr Hn].
    destruct (py_call fn_body g v (mkState n cs1)) as [[r1|e1] s1],
             (py_call fn_body g v (mkState n cs2)) as [[r2|e2] s2];
      simpl in *; try discriminate; split; congruence.
  - rewrite !Writer_bind_run.
    destruct (py_call_calls_blind g v n cs1 cs2) as [Hr Hn].
    destruct (py_call fn_body g v (mkState n cs1)) as [[r1|e1] s1],
             (py_call fn_body g v (mkState n cs2)) as [[r2|e2] s2];
      simpl in *; try discriminate; try (split; congruence).
    injection Hr as ->.
    destruct (let? rv := getattr r2 "value" in
              let? rm := getattr r2 "monoid" in
              let? l := py_add t rm in Ok (rv, l)) as [[rv l]|e];
      simpl; split; congruence.
Qed.

(** X11. Associativity of [bind] up to the swallowing of exceptions:
    [m.bind(lambda x: f(x).bind(g))] returns what
    [m.bind(f).bind(g)] returns, and [Nothing] where the latter
    raises (which it does when [f] returns something without a
    [bind] method, or a Writer whose [bind] fails). *)
Theorem Maybe_bind_associative_up_to_exceptions
    (f g h : fid) (o : oid) (v t : val) (s : state) :
  (forall x n, fn_body h x n = kleisli_body fn_body (VFun f) (VFun g) x n) ->
  fst (Maybe_bind fn_body (VMonad CMaybe o v t) (VFun h) s) =
  match fst ((r <- Maybe_bind fn_body (VMonad CMaybe o v t) (VFun f) ;;
              call_bind fn_body r (VFun g)) s) with
  | Ok z => Ok z
  | Err _ => Ok Nothing
  end.
Proof.
  intros Hh. unfold bind at 1. rewrite !Maybe_bind_run.
  destruct (py_is_False t) eqn:Ht.
  - unfold call_bind. rewrite Maybe_bind_run, Ht. reflexivity.
  - simpl. rewrite Hh. unfold kleisli_body, lambda_body, bind. simpl.
    destruct (fn_body f v (next_id s)) as [[y|e] n1]; [|reflexivity].
    destruct (call_bind_calls_blind y (VFun g) n1 [(VFun f, v)]
                (calls s ++ [(VFun f, v)])%list) as [Hr _].
    rewrite <- Hr.
    destruct (call_bind fn_body y (VFun g) (mkState n1 [(VFun f, v)]))
      as [[z|e] s2]; reflexivity.
Qed.
End MaybeAssociativity.

(** [Maybe(f0, False).amap(3)] and [Just(f0).amap(3)]. *)
Lemma Maybe_amap_checks_argument_only_when_present_witness :
  Maybe_amap composed_body (VMonad CMaybe 1 (VFun 0) (VBool false)) (VInt 3)
    (mkState 2 []) = (Ok Nothing, mkState 2 []) /\
  Maybe_amap composed_body (VMonad CMaybe 1 (VFun 0) (VBool true)) (VInt 3)
    (mkState 2 []) = (Err (AttributeError "is_nothing"), mkState 2 []).
Proof.
  split.
  - apply (proj1 (@Maybe_amap_checks_argument_only_when_present composed_body
                    1 (VFun 0) (VBool false) (VInt 3) (mkState 2 []))).
    reflexivity.
  - apply (proj2 (@Maybe_amap_checks_argument_only_when_present composed_body
                    1 (VFun 0) (VBool true) (VInt 3) (mkState 2 [])));
      [reflexivity|exact I].
Defined.

(** [Maybe.insert(5).bind(lambda x: x + 1)] returns the number 6. *)
Lemma Maybe_left_identity_witness :
  (j <- Maybe_insert (VInt 5) ;; Maybe_bind composed_body j (VFun 0))
    initial_state = (Ok (VInt 6), mkState 2 [(VFun 0, VInt 5)]).
Proof.
  apply (@Maybe_left_identity composed_body (VInt 5) (VFun 0) (VInt 6)
           initial_state (mkState 2 [(VFun 0, VInt 5)])).
  reflexivity.
Defined.



(** [Just(5).map(f0)] against [Just(5).bind(lambda x: Just(f0(x)))]. *)
Lemma Maybe_map_is_bind_of_Just_witness :
  fst (Maybe_map composed_body (VMonad CMaybe 1 (VInt 5) (VBool true))
         (VFun 0) (mkState 2 [])) =
  fst (Maybe_bind composed_body (VMonad CMaybe 1 (VInt 5) (VBool true))
         (VFun 8) (mkState 2 [])).
Proof.
  apply (@Maybe_map_is_bind_of_Just composed_body 0 8 1 (VInt 5) true
           (mkState 2 [])).
  reflexivity.
Defined.

(** [Just(5).bind(lambda x: f7(x).bind(f7))] with
    [f7 = lambda x: Just(x + 1)]. *)
Lemma Maybe_bind_associative_up_to_exceptions_witness :
  fst (Maybe_bind composed_body (VMonad CMaybe 1 (VInt 5) (VBool true))
         (VFun 9) (mkState 2 [])) =
  match fst ((r <- Maybe_bind composed_body
                     (VMonad CMaybe 1 (VInt 5) (VBool true)) (VFun 7) ;;
              call_bind composed_body r (VFun 7)) (mkState 2 [])) with
  | Ok z => Ok z
  | Err _ => Ok Nothing
  end.
Proof.
  apply (@Maybe_bind_associative_up_to_exceptions composed_body 7 7 9 1
           (VInt 5) (VBool true) (mkState 2 [])).
  reflexivity.
Defined.

(** ** Further properties of the Writer methods *)

Lemma append_associative (a b c : string) :
  ((a ++ b) ++ c)%string = (a ++ (b ++ c))%string.
Proof. induction a as [|ch a IH]; simpl; [reflexivity|now rewrite IH]. Qed.


Section WriterLaws.
Variable fn_body : fid -> val -> oid -> res val * oid.



(** X14. Left identity for string logs: when [f(x)] returns a Writer
    whose log is a string, [Writer.insert(x).bind(f)] returns a new
    Writer with the very same value and log, which compares with it
    as it compares with itself. *)
Theorem Writer_left_identity
    (x f : val) (ro : oid) (rv : val) (rl : string) (s s' : state) :
  py_call fn_body f x (alloc s) = (Ok (VMonad CWriter ro rv (VStr rl)), s') ->
  (w <- Writer_insert x ;; Writer_bind fn_body w f) s =
    (Ok (VMonad CWriter (next_id s') rv (VStr rl)), alloc s') /\
  py_eq (VMonad CWriter (next_id s') rv (VStr rl))
        (VMonad CWriter ro rv (VStr rl)) =
  py_eq (VMonad CWriter ro rv (VStr rl)) (VMonad CWriter ro rv (VStr rl)).
Proof.
  intros Hcall. split.
  - unfold bind at 1, Writer_insert, new_monad.
    rewrite Writer_bind_run, Hcall. reflexivity.
  - rewrite !py_eq_monad_monad. reflexivity.
Qed.

(** X15. What [bind] demands of the function's result: without a
    [value] attribute it raises [AttributeError], with [value] but no
    [monoid] it raises [AttributeError], and with a [monoid] that
    cannot be added to the log it raises [TypeError]; each time the
    call has been made and no Writer has been created. *)
Theorem Writer_bind_result_requirements
    (o : oid) (v log f r : val) (s s' : state) :
  py_call fn_body f v s = (Ok r, s') ->
  (getattr r "value" = Err (AttributeError "value") ->
   Writer_bind fn_body (VMonad CWriter o v log) f s =
   (Err (AttributeError "value"), s')) /\
  (forall rv,
     getattr r "value" = Ok rv ->
     getattr r "monoid" = Err (AttributeError "monoid") ->
     Writer_bind fn_body (VMonad CWriter o v log) f s =
     (Err (AttributeError "monoid"), s')) /\
  (forall rv rm,
     getattr r "value" = Ok rv ->
     getattr r "monoid" = Ok rm ->
     py_add log rm = Err TypeError ->
     Writer_bind fn_body (VMonad CWriter o v log) f s = (Err TypeError, s')).
Proof.
  intros Hcall. rewrite Writer_bind_run, Hcall. repeat split.
  - intros ->. reflexivity.
  - intros rv -> ->. reflexivity.
  - intros rv rm -> ->. simpl. intros ->. reflexivity.
Qed.

(** X16. [map] and [bind] call the function exactly once, on the
    stored value, whether or not the call or the rest of the method
    raises. *)
Theorem Writer_calls_function_exactly_once
    (o : oid) (v log : val) (i : fid) (s : state) :
  calls (snd (Writer_map fn_body (VMonad CWriter o v log) (VFun i) s)) =
    (calls s ++ [(VFun i, v)])%list /\
  calls (snd (Writer_bind fn_body (VMonad CWriter o v log) (VFun i) s)) =
    (calls s ++ [(VFun i, v)])%list.
Proof.
  rewrite Writer_map_run, Writer_bind_run.
  rewrite <- (py_call_VFun_calls fn_body i v s).
  destruct (py_call fn_body (VFun i) v s) as [[r|e] s']; simpl;
    [|split; reflexivity].
  split; [reflexivity|].
  destruct (getattr r "value"); simpl; [|reflexivity].
  destruct (getattr r "monoid"); simpl; [|reflexivity].
  destruct (py_add log a0); reflexivity.
Qed.

End WriterLaws.

Lemma concat_empty_cons (x : string) (xs : list string) :
  String.concat "" (x :: xs) = (x ++ String.concat "" xs)%string.
Proof.
  destruct xs as [|y ys]; simpl; [now rewrite append_empty_right|reflexivity].
Qed.

Section WriterChains.
Variable fn_body : fid -> val -> oid -> res val * oid.


(** X19. Logs accumulate in call order over a chain of any length: if
    every function of the chain returns a Writer whose log is its own
    fixed string, then [w.bind(f1).bind(f2)...] returns a Writer whose
    log is the log of [w] followed by those strings in order, after
    one call per function. *)
Theorem Writer_chain_log_order (label : fid -> string) (fs : list fid) :
  Forall (fun i => forall x n, exists y o' n',
            fn_body i x n = (Ok (VMonad CWriter o' y (VStr (label i))), n'))
         fs ->
  forall (o : oid) (v : val) (l0 : string) (s : state),
  exists o' v' s',
    bind_chain fn_body (VMonad CWriter o v (VStr l0)) (map VFun fs) s =
    (Ok (VMonad CWriter o' v' (VStr (l0 ++ String.concat "" (map label fs)))),
     s') /\
    length (calls s') = length (calls s) + length fs.
Proof.
  induction 1 as [|i rest Hi _ IH]; intros o v l0 s.
  - exists o, v, s. simpl. rewrite append_empty_right. split; [reflexivity|lia].
  - destruct (Hi v (next_id s)) as (y & o1 & n1 & Hcall).
    change (map label (i :: rest)) with (label i :: map label rest).
    rewrite concat_empty_cons, <- append_associative.
    cbn [map bind_chain]. unfold bind at 1, call_bind.
    rewrite Writer_bind_run. simpl. rewrite Hcall. simpl.
    destruct (IH n1 y (l0 ++ label i)%string
                (alloc (mkState n1 (calls s ++ [(VFun i, v)]))))
      as (o' & v' & s' & Hrun & Hlen).
    exists o', v', s'. split.
    + rewrite Hrun. reflexivity.
    + rewrite Hlen. simpl. rewrite length_app. simpl. lia.
Qed.
End WriterChains.



(** [Writer.insert(5).bind(lambda x: Writer(x + 1, "a"))]. *)
Lemma Writer_left_identity_witness :
  (w <- Writer_insert (VInt 5) ;; Writer_bind composed_body w (VFun 3))
    initial_state =
    (Ok (VMonad CWriter 3 (VInt 6) (VStr "a")),
     mkState 4 [(VFun 3, VInt 5)]) /\
  py_eq (VMonad CWriter 3 (VInt 6) (VStr "a"))
        (VMonad CWriter 2 (VInt 6) (VStr "a")) =
  py_eq (VMonad CWriter 2 (VInt 6) (VStr "a"))
        (VMonad CWriter 2 (VInt 6) (VStr "a")).
Proof.
  apply (@Writer_left_identity composed_body (VInt 5) (VFun 3) 2 (VInt 6) "a"
           initial_state (mkState 3 [(VFun 3, VInt 5)])).
  reflexivity.
Defined.

(** [Writer(5, "x").bind(lambda x: x + 1)]: the result is a number;
    [Writer(5, ["x"]).bind(lambda x: Writer(x + 1, "a"))]: a list
    plus a string. *)
Lemma Writer_bind_result_requirements_witness :
  Writer_bind composed_body (VMonad CWriter 1 (VInt 5) (VStr "x")) (VFun 0)
    (mkState 2 []) =
    (Err (AttributeError "value"), mkState 2 [(VFun 0, VInt 5)]) /\
  Writer_bind composed_body (VMonad CWriter 1 (VInt 5) (VList [VStr "x"]))
    (VFun 3) (mkState 2 []) =
    (Err TypeError, mkState 3 [(VFun 3, VInt 5)]).
Proof.
  split.
  - apply (proj1 (@Writer_bind_result_requirements composed_body 1 (VInt 5)
                    (VStr "x") (VFun 0) (VInt 6) (mkState 2 [])
                    (mkState 2 [(VFun 0, VInt 5)]) eq_refl)).
    reflexivity.
  - apply (proj2 (proj2 (@Writer_bind_result_requirements composed_body 1
                           (VInt 5) (VList [VStr "x"]) (VFun 3)
                           (VMonad CWriter 2 (VInt 6) (VStr "a"))
                           (mkState 2 []) (mkState 3 [(VFun 3, VInt 5)])
                           eq_refl))
             (VInt 6) (VStr "a"));
      reflexivity.
Defined.



(** [Writer(0, "x").bind(f10).bind(f11)] has the log ["xab"]. *)
Lemma Writer_chain_log_order_witness :
  exists o' v' s',
    bind_chain composed_body (VMonad CWriter 1 (VInt 0) (VStr "x"))
      (map VFun [10; 11]) (mkState 2 []) =
    (Ok (VMonad CWriter o' v' (VStr "xab")), s') /\
    length (calls s') = 2.
Proof.
  apply (@Writer_chain_log_order composed_body
           (fun i => if Nat.eqb i 10 then "a" else "b") [10; 11]
           ltac:(repeat constructor; intros x n; eexists _, _, _; reflexivity)
           1 (VInt 0) "x" (mkState 2 [])).
Defined.
